(** * gomodcmd: a runner for the module-aware Go command line

    A shallow embedding of [pkg/gomodcmd/runner.go] and the properties of
    its constructor [NewRunner], of its subprocess helper [exec] and of the
    three pass-through methods [GetD], [Install] and [ModTidy].

    Go strings are byte strings and are modelled by [string] (a list of
    8-bit [ascii]).  The operating system (processes and the file system)
    is an interface, [Host]; every call the package makes to it is recorded
    in a trace, so that the number, the order and the arguments of the
    subprocess calls can be stated.  The [context.Context] argument only
    influences what [cmd.Run] returns and is part of the host. *)

From Stdlib Require Import String Ascii List Bool Arith Lia.
Import ListNotations.

Open Scope string_scope.
Open Scope list_scope.

Set Implicit Arguments.

(** ** The parts of the Go standard library the package calls *)

Module strings.

(** [strings.HasPrefix(s, prefix)]. *)
Definition HasPrefix (s pre : string) : bool := String.prefix pre s.

(** [strings.Join(elems, sep)]. *)
Definition Join (elems : list string) (sep : string) : string :=
  String.concat sep elems.

(** [trimRightByte(s, c)]: drop bytes equal to [c] from the end of [s],
    as long as there is one. *)
Fixpoint trimRightByte (s : string) (c : ascii) : string :=
  match s with
  | EmptyString => EmptyString
  | String a s' =>
      match trimRightByte s' c with
      | EmptyString => if Ascii.eqb a c then EmptyString else String a EmptyString
      | t => String a t
      end
  end.

(** The line feed, the one byte of the cutset ["\n"]. *)
Definition LF : ascii := ascii_of_nat 10.

(** [strings.TrimRight(s, "\n")]: for a cutset of one ASCII byte the
    library calls [trimRightByte]. *)
Definition TrimRight_LF (s : string) : string := trimRightByte s LF.

(** [strings.Repeat(string(c), k)]. *)
Fixpoint Repeat (c : ascii) (k : nat) : string :=
  match k with
  | O => EmptyString
  | S k' => String c (Repeat c k')
  end.

(** [strings.Contains(s, substr)], as a proposition. *)
Definition Includes (s sub : string) : Prop :=
  exists pre post : string, s = (pre ++ sub ++ post)%string.

End strings.

Module filepath.

(** The path separator of the Unix implementation. *)
Definition Separator : ascii := "/"%char.

(** The elements of a path: the byte strings between separators. *)
Fixpoint elements (path : string) : list string :=
  match path with
  | EmptyString => [EmptyString]
  | String a rest =>
      if Ascii.eqb a Separator then EmptyString :: elements rest
      else match elements rest with
           | e :: es => String a e :: es
           | [] => [String a EmptyString]
           end
  end.

Definition IsRooted (path : string) : bool :=
  match path with
  | String a _ => Ascii.eqb a Separator
  | EmptyString => false
  end.

(** One round of the loop of [Clean].  [out] holds the elements written
    so far, last one first; [dotdot] is the number of elements at its
    bottom that a [..] may not remove (a leading [../..]). *)
Definition clean_step (rooted : bool) (st : list string * nat) (e : string)
  : list string * nat :=
  let '(out, dotdot) := st in
  if String.eqb e "" then st
  else if String.eqb e "." then st
  else if String.eqb e ".." then
    if Nat.ltb dotdot (length out) then (tl out, dotdot)
    else if negb rooted then (".." :: out, S (length out))
    else st
  else (e :: out, dotdot).

(** [filepath.Clean(path)] on Unix (no volume names). *)
Definition Clean (path : string) : string :=
  if String.eqb path "" then "."
  else
    let rooted := IsRooted path in
    let out := fst (fold_left (clean_step rooted) (elements path) ([], 0)) in
    let body := strings.Join (rev out) "/" in
    if rooted then ("/" ++ body)%string
    else if String.eqb body "" then "." else body.

(** [filepath.Join(elem...)] on Unix: the elements from the first
    non-empty one on, joined by the separator and cleaned; the empty
    string when there is none. *)
Fixpoint Join (elem : list string) : string :=
  match elem with
  | [] => ""
  | e :: rest =>
      if String.eqb e "" then Join rest
      else Clean (strings.Join elem "/")
  end.

End filepath.

(** ** Errors

    The error values the package sees and makes.  [ExitError] is
    [*exec.ExitError] (its text is the process state, such as
    [exit status 1]); [SysError] is any other error of [os], [os/exec] or
    [context], with the answer [os.IsNotExist] gives for it; [fundamental]
    and [withMessage] are the values of [github.com/pkg/errors]. *)

Inductive error : Type :=
| ExitError (state : string)
| SysError (notExist : bool) (msg : string)
| fundamental (msg : string)
| withMessage (cause : error) (msg : string).

(** The method [Error()], which is also what the verbs [%v] and [%s]
    print for an error. *)
Fixpoint Error (e : error) : string :=
  match e with
  | ExitError state => state
  | SysError _ msg => msg
  | fundamental msg => msg
  | withMessage cause msg => (msg ++ ": " ++ Error cause)%string
  end.

(** The type assertion of [exec]: is [err] an [exec.ExitError]? *)
Definition isExitError (e : error) : bool :=
  match e with
  | ExitError _ => true
  | _ => false
  end.

Module os.
(** [os.IsNotExist(err)]; it does not look through the wrappers of
    [pkg/errors]. *)
Definition IsNotExist (e : error) : bool :=
  match e with
  | SysError notExist _ => notExist
  | _ => false
  end.
End os.

Module errors.
Definition New (msg : string) : error := fundamental msg.
(** [errors.Wrap] and [errors.Wrapf], on an error that is not nil. *)
Definition Wrap (err : error) (msg : string) : error := withMessage err msg.
End errors.

(** A Go result [(v, err)] with [err] nil or not. *)
Inductive result (A : Type) : Type :=
| Ok (v : A)
| Err (e : error).
Arguments Ok {A} v.
Arguments Err {A} e.

(** ** The host: processes and the file system *)

(** What [cmd.Run] leaves behind: the bytes written to the buffer that is
    both standard output and standard error, and the error it returns. *)
Record RunResult : Type := mkRun {
  output : string;
  run_err : option error
}.

Class Host (W : Type) : Type := {
  (** [cmd.Run()] for the command [command args...] with [cmd.Dir = dir]. *)
  cmd_Run : string -> string -> list string -> W -> RunResult * W;
  (** [os.MkdirAll(path, os.ModePerm)]. *)
  os_MkdirAll : string -> W -> option error * W;
  (** [os.Stat(path)], of which the package only uses the error. *)
  os_Stat : string -> W -> option error * W
}.

Inductive Event : Type :=
| EvRun (dir command : string) (args : list string)
| EvMkdirAll (path : string)
| EvStat (path : string).

Record State (W : Type) : Type := mkState {
  world : W;
  trace : list Event
}.

(** Computations on the host. *)
Definition M (W A : Type) : Type := State W -> A * State W.

Definition ret {W A : Type} (a : A) : M W A := fun st => (a, st).

Definition bind {W A B : Type} (m : M W A) (k : A -> M W B) : M W B :=
  fun st => let '(a, st') := m st in k a st'.

Declare Scope host_scope.
Delimit Scope host_scope with host.
Notation "x <- m ;; k" := (bind m (fun x => k))
  (at level 100, m at next level, right associativity) : host_scope.

(** The three calls to the host, each recorded in the trace. *)
Definition run {W : Type} {H : Host W} (dir command : string) (args : list string)
  : M W RunResult :=
  fun st =>
    let '(r, w) := cmd_Run dir command args (world st) in
    (r, mkState w (trace st ++ [EvRun dir command args])).

Definition MkdirAll {W : Type} {H : Host W} (path : string) : M W (option error) :=
  fun st =>
    let '(r, w) := os_MkdirAll path (world st) in
    (r, mkState w (trace st ++ [EvMkdirAll path])).

Definition Stat {W : Type} {H : Host W} (path : string) : M W (option error) :=
  fun st =>
    let '(r, w) := os_Stat path (world st) in
    (r, mkState w (trace st ++ [EvStat path])).

(** ** The package *)

(** Runner allows to run certain commands against module aware Go CLI. *)
Record Runner : Type := mkRunner {
  goCmd : string;
  modDir : string;
  insecure : bool;
  verbose : bool
}.

Definition GetUpdatePolicy : Type := string.
Definition NoUpdatePolicy : GetUpdatePolicy := "".
Definition UpdatePolicy : GetUpdatePolicy := "-u".
Definition UpdatePatchPolicy : GetUpdatePolicy := "-u=patch".

(** The text both wrapped failures of [exec] are made of:
    [error while running command '%s %s'; out: %s; err: %v]. *)
Definition exec_errorf (command : string) (args : list string) (out : string)
  (err : error) : error :=
  errors.New ("error while running command '" ++ command ++ " "
              ++ strings.Join args " " ++ "'; out: " ++ out
              ++ "; err: " ++ Error err)%string.

(** The version the constructor asks for. *)
Definition version_prefix : string := "go version go1.14.".

Section Package.

Context {W : Type} {H : Host W}.

Local Open Scope host_scope.

Definition exec (c : Runner) (cd command : string) (args : list string)
  : M W (result string) :=
  (* cmd.Dir is empty after exec.CommandContext *)
  let dir := filepath.Join [""; cd] in
  r <- run dir command args ;;
  match run_err r with
  | Some err =>
      if isExitError err then
        if verbose c then ret (Err (exec_errorf command args (output r) err))
        else ret (Err (errors.New (output r)))
      else ret (Err (exec_errorf command args (output r) err))
  | None => ret (Ok (strings.TrimRight_LF (output r)))
  end.

Definition execGo (c : Runner) (args : list string) : M W (result string) :=
  exec c "" (goCmd c) args.

Definition execGoInModDir (c : Runner) (args : list string)
  : M W (result string) :=
  exec c (modDir c) (goCmd c) args.

(** NewRunner checks Go version compatibility and initialize new go.mod in
    the modDir if not yet present, then returns Runner. *)
Definition NewRunner (insecure : bool) (modDir goCmd : string)
  : M W (result Runner) :=
  let r := mkRunner goCmd modDir insecure false in
  ver <- execGo r ["version"] ;;
  match ver with
  | Err err => ret (Err (errors.Wrap err "exec go to detect the version"))
  | Ok ver =>
      if negb (strings.HasPrefix ver "go version go1.14.") then
        ret (Err (errors.New ("found unsupported go version: " ++ ver
                              ++ ". Requires go1.14.x")%string))
      else
        mk <- MkdirAll modDir ;;
        match mk with
        | Some err => ret (Err (errors.Wrap err ("create moddir " ++ modDir)%string))
        | None =>
            st <- Stat (filepath.Join [modDir; "go.mod"]) ;;
            match st with
            | Some err =>
                if negb (os.IsNotExist err) then
                  ret (Err (errors.Wrap err
                              ("stat module file "
                               ++ filepath.Join [modDir; "go.mod"])%string))
                else
                  currMod <- execGo r ["list"; "-m"] ;;
                  match currMod with
                  | Err err => ret (Err err)
                  | Ok currMod =>
                      ini <- execGoInModDir r
                               ["mod"; "init"; filepath.Join [currMod; modDir]] ;;
                      match ini with
                      | Err err => ret (Err err)
                      | Ok _ => ret (Ok r)
                      end
                  end
            | None => ret (Ok r)
            end
        end
  end.

(** The argument list [GetD] builds, one [append] after the other. *)
Definition GetD_args (c : Runner) (update : GetUpdatePolicy)
  (packages : list string) : list string :=
  let args := ["get"; "-d"] in
  let args := if insecure c then args ++ ["-insecure"] else args in
  let args := if negb (String.eqb update NoUpdatePolicy)
              then args ++ [update] else args in
  args ++ packages.

(** The error a method returns: nil or not. *)
Definition err_of {A : Type} (r : result A) : option error :=
  match r with
  | Ok _ => None
  | Err e => Some e
  end.

(** GetD runs 'go get -d' against separate go modules file with given
    arguments. *)
Definition GetD (c : Runner) (update : GetUpdatePolicy) (packages : list string)
  : M W (option error) :=
  r <- execGoInModDir c (GetD_args c update packages) ;;
  ret (err_of r).

(** Installs runs 'go install' against separate go modules file with given
    packages. *)
Definition Install (c : Runner) (packages : list string) : M W (option error) :=
  r <- execGoInModDir c (["install"] ++ packages) ;;
  ret (err_of r).

(** ModTidy runs 'go mod tidy' against separate go modules file. *)
Definition ModTidy (c : Runner) : M W (option error) :=
  r <- execGoInModDir c ["mod"; "tidy"] ;;
  ret (err_of r).

End Package.

(** ** Reading a trace *)

(** Does [args] start with the words [pre]? *)
Fixpoint starts_with (pre args : list string) : bool :=
  match pre, args with
  | [], _ => true
  | p :: pre', a :: args' => String.eqb p a && starts_with pre' args'
  | _ :: _, [] => false
  end.

Definition is_run (e : Event) : bool :=
  match e with
  | EvRun _ _ _ => true
  | _ => false
  end.

(** A [list -m] subprocess call. *)
Definition is_list_m (e : Event) : bool :=
  match e with
  | EvRun _ _ args => starts_with ["list"; "-m"] args && Nat.eqb (length args) 2
  | _ => false
  end.

(** A [mod init] subprocess call. *)
Definition is_mod_init (e : Event) : bool :=
  match e with
  | EvRun _ _ args => starts_with ["mod"; "init"] args
  | _ => false
  end.

Definition count (p : Event -> bool) (t : list Event) : nat :=
  length (filter p t).

(** ** A host to run the package on

    A stub of the Go tool and of the file system: the tool is found under
    one name, prints a version line, knows the main module of the directory
    the caller is in (or none), and [mod init] writes the manifest unless
    there is one. *)

Record Stub : Type := mkStub {
  tool : string;
  version_line : string;
  main_module : option string;
  files : list string
}.

Definition has_file (w : Stub) (path : string) : bool :=
  existsb (String.eqb path) (files w).

Definition stub_run (dir command : string) (args : list string) (w : Stub)
  : RunResult * Stub :=
  if negb (String.eqb command (tool w)) then
    (mkRun "" (Some (SysError false
                       ("exec: " ++ command ++ ": executable file not found")%string)), w)
  else
    match args with
    | [a] =>
        if String.eqb a "version" then
          (mkRun (version_line w ++ String strings.LF "")%string None, w)
        else (mkRun "go: unknown command" (Some (ExitError "exit status 2")), w)
    | [a; b] =>
        if String.eqb a "list" && String.eqb b "-m" then
          match main_module w with
          | Some m => (mkRun (m ++ String strings.LF "")%string None, w)
          | None => (mkRun "go: cannot find main module"
                           (Some (ExitError "exit status 1")), w)
          end
        else (mkRun "go: unknown command" (Some (ExitError "exit status 2")), w)
    | [a; b; name] =>
        if String.eqb a "mod" && String.eqb b "init" then
          let manifest := filepath.Join [dir; "go.mod"] in
          if has_file w manifest then
            (mkRun "go mod init: go.mod already exists"
                   (Some (ExitError "exit status 1")), w)
          else
            (mkRun ("go: creating new go.mod: module " ++ name)%string None,
             mkStub (tool w) (version_line w) (main_module w) (manifest :: files w))
        else (mkRun "go: unknown command" (Some (ExitError "exit status 2")), w)
    | _ => (mkRun "go: unknown command" (Some (ExitError "exit status 2")), w)
    end.

Definition stub_mkdir_all (path : string) (w : Stub) : option error * Stub :=
  if String.eqb path "" then
    (Some (SysError true "mkdir : no such file or directory"), w)
  else (None, w).

Definition stub_stat (path : string) (w : Stub) : option error * Stub :=
  if has_file w path then (None, w)
  else (Some (SysError true ("stat " ++ path ++ ": no such file or directory")%string), w).

#[export] Instance stub_host : Host Stub := {
  cmd_Run := stub_run;
  os_MkdirAll := stub_mkdir_all;
  os_Stat := stub_stat
}.

(** Go 1.14 in a checkout of [example.com/mod], no manifest anywhere. *)
Definition fresh : State Stub :=
  mkState (mkStub "go" "go version go1.14.9 linux/amd64" (Some "example.com/mod") []) [].

(** The world of [fresh] once [mod init] has run in [.bingo]. *)
Definition fresh_bootstrapped : Stub :=
  mkStub "go" "go version go1.14.9 linux/amd64" (Some "example.com/mod")
    [".bingo/go.mod"].

(** The same with the manifest of [.bingo] in place. *)
Definition bootstrapped : State Stub :=
  mkState (mkStub "go" "go version go1.14.9 linux/amd64" (Some "example.com/mod")
             [".bingo/go.mod"]) [].

(** Go 1.14 outside any module. *)
Definition no_module : State Stub :=
  mkState (mkStub "go" "go version go1.14.9 linux/amd64" None []) [].

(** An older tool. *)
Definition go113 : State Stub :=
  mkState (mkStub "go" "go version go1.13.4 linux/amd64" (Some "example.com/mod") []) [].

(** ** A scripted host

    A host that answers each call with the next reply of a script,
    whatever the call is; a call the script has no fitting reply for
    fails. *)

Inductive Reply : Type :=
| ReplyRun (r : RunResult)
| ReplyErr (e : option error).

Definition Script : Type := list Reply.

Definition script_run (dir command : string) (args : list string) (w : Script)
  : RunResult * Script :=
  match w with
  | ReplyRun r :: w' => (r, w')
  | _ => (mkRun "" (Some (SysError false "script: no reply")), tl w)
  end.

Definition script_fs (path : string) (w : Script) : option error * Script :=
  match w with
  | ReplyErr e :: w' => (e, w')
  | _ => (Some (SysError false "script: no reply"), tl w)
  end.

#[export] Instance script_host : Host Script := {
  cmd_Run := script_run;
  os_MkdirAll := script_fs;
  os_Stat := script_fs
}.

(** The reply of a tool that prints the version line of Go 1.14.2. *)
Definition reply_go114 : Reply :=
  ReplyRun (mkRun ("go version go1.14.2 linux/amd64" ++ String strings.LF "")%string None).

(** A tool of version 1.14.2 on a file system that refuses the stat of
    the manifest. *)
Definition stat_denied : State Script :=
  mkState [reply_go114; ReplyErr None;
           ReplyErr (Some (SysError false "stat .bingo/go.mod: permission denied"))] [].

(** A tool of version 1.14.2 in the module [example.com/mod], with no
    manifest, whose [mod init] fails. *)
Definition init_fails : State Script :=
  mkState [reply_go114; ReplyErr None;
           ReplyErr (Some (SysError true "stat .bingo/go.mod: no such file or directory"));
           ReplyRun (mkRun ("example.com/mod" ++ String strings.LF "")%string None);
           ReplyRun (mkRun "go: cannot determine module path"
                           (Some (ExitError "exit status 1")))] [].

(** The release 1.14 itself, whose version has no patch number. *)
Definition go114_release : State Stub :=
  mkState (mkStub "go" "go version go1.14 linux/amd64" (Some "example.com/mod") []) [].

(** ** The calls of the constructor *)

(** What a call of [NewRunner modDir goCmd] to the host may be: the tool,
    in the directory of the caller or in the module directory; [MkdirAll]
    of the module directory; [Stat] of its manifest. *)
Definition constructor_call (modDir goCmd : string) (e : Event) : Prop :=
  match e with
  | EvRun dir command _ =>
      command = goCmd /\ (dir = ""%string \/ dir = filepath.Join [""; modDir])
  | EvMkdirAll path => path = modDir
  | EvStat path => path = filepath.Join [modDir; "go.mod"]
  end.

(** ** Tactics *)

Ltac fields :=
  cbn [goCmd modDir insecure verbose world trace output run_err fst snd negb
       isExitError os.IsNotExist].

Ltac open_constructor :=
  unfold NewRunner, execGo, execGoInModDir, bind, ret; fields.

(** One more decision on a path through the constructor. *)
Ltac path_step :=
  match goal with
  | |- context [match ?x with Some _ => _ | None => _ end] => is_var x; destruct x
  | |- context [cmd_Run ?d ?c ?a ?w] => destruct (cmd_Run d c a w) eqn:?
  | |- context [os_MkdirAll ?p ?w] => destruct (os_MkdirAll p w) eqn:?
  | |- context [os_Stat ?p ?w] => destruct (os_Stat p w) eqn:?
  | |- context [run_err ?r] => destruct (run_err r) eqn:?
  | |- context [isExitError ?e] => destruct (isExitError e) eqn:?
  | |- context [os.IsNotExist ?e] => destruct (os.IsNotExist e) eqn:?
  | |- context [strings.HasPrefix ?s ?p] => destruct (strings.HasPrefix s p) eqn:?
  end; fields.

(** The constructor with its calls to the host laid open. *)
Ltac lay_open :=
  unfold NewRunner, execGo, execGoInModDir, exec, run, MkdirAll, Stat, bind, ret;
  change (filepath.Join [""; ""]) with ""%string;
  fields.

(** Every path through the constructor, one goal each. *)
Ltac all_paths := lay_open; repeat path_step.

(** ** The model at work *)
Module filepath_examples.
Import filepath.

Example clean_plain : Clean "abc/def" = "abc/def".
Proof. reflexivity. Qed.
Example clean_empty : Clean "" = ".".
Proof. reflexivity. Qed.
Example clean_root : Clean "/" = "/".
Proof. reflexivity. Qed.
Example clean_trailing : Clean "abc/def/" = "abc/def".
Proof. reflexivity. Qed.
Example clean_double : Clean "abc//def//ghi" = "abc/def/ghi".
Proof. reflexivity. Qed.
Example clean_rooted_double : Clean "//abc//" = "/abc".
Proof. reflexivity. Qed.
Example clean_dot : Clean "/./abc/./def/." = "/abc/def".
Proof. reflexivity. Qed.
Example clean_dotdot : Clean "abc/def/../ghi/../jkl" = "abc/jkl".
Proof. reflexivity. Qed.
Example clean_to_dot : Clean "abc/def/../.." = ".".
Proof. reflexivity. Qed.
Example clean_to_root : Clean "/abc/def/../../.." = "/".
Proof. reflexivity. Qed.
Example clean_above : Clean "abc/def/../../.." = "..".
Proof. reflexivity. Qed.
Example clean_above_deep :
  Clean "abc/def/../../../ghi/jkl/../../../mno" = "../../mno".
Proof. reflexivity. Qed.
Example clean_rooted_above : Clean "/../abc" = "/abc".
Proof. reflexivity. Qed.
Example clean_combo : Clean "abc/../../././../def" = "../../def".
Proof. reflexivity. Qed.
Example clean_hidden : Clean ".bingo/..a/b" = ".bingo/..a/b".
Proof. reflexivity. Qed.

Example join_two : Join ["a"; "b"] = "a/b".
Proof. reflexivity. Qed.
Example join_empty_first : Join [""; "b"] = "b".
Proof. reflexivity. Qed.
Example join_empty_second : Join ["a"; ""] = "a".
Proof. reflexivity. Qed.
Example join_all_empty : Join [""; ""] = "".
Proof. reflexivity. Qed.
Example join_rooted_second : Join ["a"; "/b"] = "a/b".
Proof. reflexivity. Qed.
Example join_dotdot : Join ["a/b"; "../../../xyz"] = "../xyz".
Proof. reflexivity. Qed.
Example join_mod : Join ["example.com/mod"; ".bingo"] = "example.com/mod/.bingo".
Proof. reflexivity. Qed.
End filepath_examples.

Module runner_examples.

Example new_runner_fresh :
  NewRunner false ".bingo" "go" fresh =
    (Ok (mkRunner "go" ".bingo" false false),
     mkState (mkStub "go" "go version go1.14.9 linux/amd64"
                (Some "example.com/mod") [".bingo/go.mod"])
       [EvRun "" "go" ["version"];
        EvMkdirAll ".bingo";
        EvStat ".bingo/go.mod";
        EvRun "" "go" ["list"; "-m"];
        EvRun ".bingo" "go" ["mod"; "init"; "example.com/mod/.bingo"]]).
Proof. reflexivity. Qed.

Example new_runner_bootstrapped :
  NewRunner true ".bingo" "go" bootstrapped =
    (Ok (mkRunner "go" ".bingo" true false),
     mkState (world bootstrapped)
       [EvRun "" "go" ["version"]; EvMkdirAll ".bingo"; EvStat ".bingo/go.mod"]).
Proof. reflexivity. Qed.

Example new_runner_go113 :
  NewRunner false ".bingo" "go" go113 =
    (Err (fundamental
            "found unsupported go version: go version go1.13.4 linux/amd64. Requires go1.14.x"),
     mkState (world go113) [EvRun "" "go" ["version"]]).
Proof. reflexivity. Qed.

Example new_runner_no_tool :
  fst (NewRunner false ".bingo" "gox" fresh) =
    Err (withMessage
           (fundamental
              "error while running command 'gox version'; out: ; err: exec: gox: executable file not found")
           "exec go to detect the version").
Proof. reflexivity. Qed.

Example get_d_insecure_update :
  snd (GetD (mkRunner "go" ".bingo" true false) UpdatePolicy ["a@v1"; "b"] bootstrapped) =
    mkState (world bootstrapped)
      [EvRun ".bingo" "go" ["get"; "-d"; "-insecure"; "-u"; "a@v1"; "b"]].
Proof. reflexivity. Qed.

End runner_examples.

(** ** Strings *)

Section StringFacts.

Local Open Scope string_scope.

Lemma append_empty_r (s : string) : s ++ "" = s.
Proof. induction s as [|a s IH]; simpl; [reflexivity | now rewrite IH]. Qed.

Lemma append_assoc (s t u : string) : (s ++ t) ++ u = s ++ t ++ u.
Proof. induction s as [|a s IH]; simpl; [reflexivity | now rewrite IH]. Qed.

Lemma append_last_not_empty (t : string) (c : ascii) : t ++ String c "" <> "".
Proof. destruct t; discriminate. Qed.

(** The trimmed string, followed by the bytes that were cut, is the
    string itself. *)
Lemma trimRightByte_cut (s : string) (c : ascii) :
  exists k : nat, s = strings.trimRightByte s c ++ strings.Repeat c k.
Proof.
  induction s as [|a s [k IH]]; simpl.
  - now exists 0.
  - destruct (strings.trimRightByte s c) as [|b t] eqn:E.
    + destruct (Ascii.eqb a c) eqn:Eac.
      * apply Ascii.eqb_eq in Eac; subst a.
        exists (S k). simpl in *. now rewrite <- IH.
      * exists k. simpl in *. now rewrite <- IH.
    + exists k. simpl in *. now rewrite <- IH.
Qed.

(** The trimmed string does not end with the byte. *)
Lemma trimRightByte_end (s : string) (c : ascii) (t : string) :
  strings.trimRightByte s c <> t ++ String c "".
Proof.
  revert t; induction s as [|a s IH]; intros t; simpl.
  - intros E; symmetry in E; revert E; apply append_last_not_empty.
  - destruct (strings.trimRightByte s c) as [|b u] eqn:E.
    + destruct (Ascii.eqb a c) eqn:Eac.
      * intros E'; symmetry in E'; revert E'; apply append_last_not_empty.
      * destruct t as [|x t]; simpl; intros E'.
        -- injection E' as ->. now rewrite Ascii.eqb_refl in Eac.
        -- injection E' as _ E'. symmetry in E'.
           revert E'; apply append_last_not_empty.
    + destruct t as [|x t]; simpl; intros E'.
      * discriminate.
      * injection E' as _ E'. exact (IH t E').
Qed.

Lemma Includes_intro (pre sub post : string) :
  strings.Includes (pre ++ sub ++ post) sub.
Proof. now exists pre, post. Qed.

Lemma Includes_end (pre sub : string) : strings.Includes (pre ++ sub) sub.
Proof. exists pre, "". now rewrite append_empty_r. Qed.

Lemma Includes_append_l (pre s sub : string) :
  strings.Includes s sub -> strings.Includes (pre ++ s) sub.
Proof.
  intros [p [q ->]]. exists (pre ++ p), q. now rewrite append_assoc.
Qed.

End StringFacts.

(** ** The subprocess helper *)

Section ExecFacts.

Context {W : Type} {H : Host W}.

(** [exec] runs the command once, in the directory [filepath.Join("", cd)],
    and decides on what [cmd.Run] returned. *)
Lemma exec_run (c : Runner) (cd command : string) (args : list string)
  (st : State W) (r : RunResult) (w : W) :
  cmd_Run (filepath.Join [""; cd]) command args (world st) = (r, w) ->
  exec c cd command args st =
    (match run_err r with
     | Some err =>
         if isExitError err then
           if verbose c then Err (exec_errorf command args (output r) err)
           else Err (errors.New (output r))
         else Err (exec_errorf command args (output r) err)
     | None => Ok (strings.TrimRight_LF (output r))
     end,
     mkState w (trace st ++ [EvRun (filepath.Join [""; cd]) command args])).
Proof.
  intros E. unfold exec, bind, run. rewrite E.
  destruct (run_err r) as [err|]; [|reflexivity].
  destruct (isExitError err); [|reflexivity].
  destruct (verbose c); reflexivity.
Qed.

(** The text of a wrapped failure has the command line, the output and
    the error in it. *)
Lemma exec_errorf_includes (command : string) (args : list string)
  (out : string) (err : error) :
  let text := Error (exec_errorf command args out err) in
  strings.Includes text (command ++ " " ++ strings.Join args " ")%string
  /\ strings.Includes text out
  /\ strings.Includes text (Error err).
Proof.
  simpl. repeat split.
  - exists "error while running command '"%string,
      ("'; out: " ++ out ++ "; err: " ++ Error err)%string.
    now rewrite !append_assoc.
  - exists ("error while running command '" ++ command ++ " "
            ++ strings.Join args " " ++ "'; out: ")%string,
      ("; err: " ++ Error err)%string.
    now rewrite !append_assoc.
  - exists ("error while running command '" ++ command ++ " "
            ++ strings.Join args " " ++ "'; out: " ++ out ++ "; err: ")%string,
      ""%string.
    now rewrite !append_assoc, append_empty_r.
Qed.

End ExecFacts.

Section ExecClaims.

Context {W : Type} {H : Host W}.

(** The directory a subprocess runs in: the caller's when [cd] is empty,
    the cleaned [cd] otherwise. *)
Lemma exec_dir (cd : string) :
  filepath.Join [""; cd] = if String.eqb cd "" then ""%string else filepath.Clean cd.
Proof. simpl. destruct (String.eqb cd ""); reflexivity. Qed.

(** C7. When the subprocess exits with status zero ([cmd.Run] returns no
    error), [exec] succeeds with the captured output without its trailing
    line feeds: the output is the result followed by line feeds only, and
    the result does not end with a line feed. *)
Theorem exec_clean_exit (c : Runner) (cd command : string) (args : list string)
  (st : State W) (out : string) (w : W) :
  cmd_Run (filepath.Join [""; cd]) command args (world st) = (mkRun out None, w) ->
  fst (exec c cd command args st) = Ok (strings.TrimRight_LF out)
  /\ (exists k : nat,
        out = (strings.TrimRight_LF out ++ strings.Repeat strings.LF k)%string)
  /\ (forall t : string,
        strings.TrimRight_LF out <> (t ++ String strings.LF "")%string).
Proof.
  intros E. rewrite (@exec_run _ _ c cd command args st _ _ E). simpl. repeat split.
  - apply trimRightByte_cut.
  - intros t. apply trimRightByte_end.
Qed.

(** C3. When the subprocess ends with an exit error, the failure of [exec]
    has exactly the captured output as its message if the Runner is not
    verbose; if it is verbose the message has the command line, the
    captured output and the exit error in it. *)
Theorem exec_exit_error (c : Runner) (cd command : string) (args : list string)
  (st : State W) (out state : string) (w : W) :
  cmd_Run (filepath.Join [""; cd]) command args (world st)
    = (mkRun out (Some (ExitError state)), w) ->
  exists e : error,
    fst (exec c cd command args st) = Err e
    /\ (verbose c = false -> Error e = out)
    /\ (verbose c = true ->
        Error e = ("error while running command '" ++ command ++ " "
                   ++ strings.Join args " " ++ "'; out: " ++ out
                   ++ "; err: " ++ state)%string
        /\ strings.Includes (Error e) (command ++ " " ++ strings.Join args " ")%string
        /\ strings.Includes (Error e) out
        /\ strings.Includes (Error e) state).
Proof.
  intros E. rewrite (@exec_run _ _ c cd command args st _ _ E). simpl.
  destruct (verbose c) eqn:V.
  - eexists; split; [reflexivity|]. split; [discriminate|]. intros _.
    split; [reflexivity|].
    exact (exec_errorf_includes command args out (ExitError state)).
  - eexists; split; [reflexivity|]. split; [reflexivity | discriminate].
Qed.

(** C6. When [cmd.Run] fails with an error that is not an exit error, the
    failure of [exec] has the command line, the captured output and that
    error in its message, whatever the verbose flag. *)
Theorem exec_other_failure (c : Runner) (cd command : string) (args : list string)
  (st : State W) (out : string) (err : error) (w : W) :
  cmd_Run (filepath.Join [""; cd]) command args (world st)
    = (mkRun out (Some err), w) ->
  isExitError err = false ->
  exists e : error,
    fst (exec c cd command args st) = Err e
    /\ Error e = ("error while running command '" ++ command ++ " "
                  ++ strings.Join args " " ++ "'; out: " ++ out
                  ++ "; err: " ++ Error err)%string
    /\ strings.Includes (Error e) (command ++ " " ++ strings.Join args " ")%string
    /\ strings.Includes (Error e) out
    /\ strings.Includes (Error e) (Error err).
Proof.
  intros E N. rewrite (@exec_run _ _ c cd command args st _ _ E). simpl. rewrite N.
  eexists; split; [reflexivity|]. split; [reflexivity|].
  exact (exec_errorf_includes command args out err).
Qed.

End ExecClaims.

Lemma exec_clean_exit_witness :
  cmd_Run (filepath.Join [""; ""]) "go" ["version"] (world fresh)
    = (mkRun ("go version go1.14.9 linux/amd64" ++ String strings.LF "")%string None,
       world fresh)
  /\ fst (exec (mkRunner "go" ".bingo" false false) "" "go" ["version"] fresh)
     = Ok "go version go1.14.9 linux/amd64"%string.
Proof.
  split; [reflexivity|].
  exact (proj1 (@exec_clean_exit Stub stub_host (mkRunner "go" ".bingo" false false)
                  "" "go" ["version"] fresh _ _ eq_refl)).
Defined.

Lemma exec_exit_error_witness :
  cmd_Run (filepath.Join [""; ".bingo"]) "go" ["frobnicate"] (world fresh)
    = (mkRun "go: unknown command" (Some (ExitError "exit status 2")), world fresh)
  /\ exists e : error,
       fst (exec (mkRunner "go" ".bingo" false false) ".bingo" "go" ["frobnicate"] fresh)
         = Err e
       /\ Error e = "go: unknown command"%string.
Proof.
  split; [reflexivity|].
  destruct (@exec_exit_error Stub stub_host (mkRunner "go" ".bingo" false false)
              ".bingo" "go" ["frobnicate"] fresh _ _ _ eq_refl) as [e [E [T _]]].
  exists e. split; [exact E | exact (T eq_refl)].
Defined.

Lemma exec_other_failure_witness :
  cmd_Run (filepath.Join [""; ".bingo"]) "gox" ["mod"; "tidy"] (world fresh)
    = (mkRun "" (Some (SysError false "exec: gox: executable file not found")),
       world fresh)
  /\ isExitError (SysError false "exec: gox: executable file not found") = false
  /\ exists e : error,
       fst (exec (mkRunner "gox" ".bingo" false true) ".bingo" "gox" ["mod"; "tidy"] fresh)
         = Err e
       /\ Error e = "error while running command 'gox mod tidy'; out: ; err: exec: gox: executable file not found"%string.
Proof.
  split; [reflexivity|]. split; [reflexivity|].
  destruct (@exec_other_failure Stub stub_host (mkRunner "gox" ".bingo" false true)
              ".bingo" "gox" ["mod"; "tidy"] fresh _ _ _ eq_refl eq_refl)
    as [e [E [T _]]].
  exists e. split; [exact E | exact T].
Defined.

(** ** The constructor *)

Section Constructor.

Context {W : Type} {H : Host W}.

Lemma MkdirAll_run (path : string) (st : State W) (r : option error) (w : W) :
  os_MkdirAll path (world st) = (r, w) ->
  MkdirAll path st = (r, mkState w (trace st ++ [EvMkdirAll path])).
Proof. intros E. unfold MkdirAll. now rewrite E. Qed.

Lemma Stat_run (path : string) (st : State W) (r : option error) (w : W) :
  os_Stat path (world st) = (r, w) ->
  Stat path st = (r, mkState w (trace st ++ [EvStat path])).
Proof. intros E. unfold Stat. now rewrite E. Qed.

Variables (insecure : bool) (modDir goCmd : string).

(** C5. When the tool has the right version, the directory is there and
    the stat of the manifest succeeds, the constructor returns the
    configured Runner after the version call, [MkdirAll] and [Stat]: there
    is no [list -m] and no [mod init] call. *)
Theorem NewRunner_manifest_present (st : State W) (out : string) (w1 w2 w3 : W) :
  cmd_Run "" goCmd ["version"] (world st) = (mkRun out None, w1) ->
  strings.HasPrefix (strings.TrimRight_LF out) version_prefix = true ->
  os_MkdirAll modDir w1 = (None, w2) ->
  os_Stat (filepath.Join [modDir; "go.mod"]) w2 = (None, w3) ->
  exists calls : list Event,
    NewRunner insecure modDir goCmd st
      = (Ok (mkRunner goCmd modDir insecure false),
         mkState w3 (trace st ++ calls))
    /\ calls = [EvRun "" goCmd ["version"]; EvMkdirAll modDir;
                EvStat (filepath.Join [modDir; "go.mod"])]
    /\ count is_list_m calls = 0
    /\ count is_mod_init calls = 0
    /\ count is_run calls = 1.
Proof.
  intros E1 P E2 E3. eexists. split; [|split; [reflexivity|]].
  - open_constructor.
    rewrite (@exec_run _ _ _ "" goCmd ["version"] st _ _ E1). fields.
    unfold version_prefix in P. rewrite P. fields.
    erewrite MkdirAll_run by exact E2. fields.
    erewrite Stat_run by exact E3.
    fields. rewrite <- !app_assoc. reflexivity.
  - repeat split.
Qed.

(** C10. When the version check fails (the version call fails, or what it
    prints lacks the prefix), the constructor returns an error and the
    version call is the only thing it did: the host is as that call left
    it, with no [MkdirAll], no [Stat] and no other subprocess. *)
Theorem NewRunner_version_check_first (st : State W) (r : RunResult) (w1 : W) :
  cmd_Run "" goCmd ["version"] (world st) = (r, w1) ->
  run_err r <> None
  \/ strings.HasPrefix (strings.TrimRight_LF (output r)) version_prefix = false ->
  exists e : error,
    NewRunner insecure modDir goCmd st
      = (Err e, mkState w1 (trace st ++ [EvRun "" goCmd ["version"]])).
Proof.
  intros E1 D. open_constructor.
  rewrite (@exec_run _ _ _ "" goCmd ["version"] st _ _ E1). fields.
  destruct (run_err r) as [err|].
  - destruct (isExitError err); eexists; reflexivity.
  - destruct D as [D|D]; [now elim D|].
    unfold version_prefix in D. rewrite D. fields. eexists; reflexivity.
Qed.

(** C4. When the version call succeeds and what it prints, without the
    trailing line feeds, does not start with [go version go1.14.], the
    constructor fails and the message of the failure has that text in it,
    as it is. *)
Theorem NewRunner_unsupported_version (st : State W) (out : string) (w1 : W) :
  cmd_Run "" goCmd ["version"] (world st) = (mkRun out None, w1) ->
  strings.HasPrefix (strings.TrimRight_LF out) version_prefix = false ->
  exists e : error,
    fst (NewRunner insecure modDir goCmd st) = Err e
    /\ Error e = ("found unsupported go version: " ++ strings.TrimRight_LF out
                  ++ ". Requires go1.14.x")%string
    /\ strings.Includes (Error e) (strings.TrimRight_LF out).
Proof.
  intros E1 P. open_constructor.
  rewrite (@exec_run _ _ _ "" goCmd ["version"] st _ _ E1). fields.
  unfold version_prefix in P. rewrite P. fields.
  eexists; split; [reflexivity|]. split; [reflexivity|].
  apply Includes_intro.
Qed.

(** C2, as the code has it. When the tool has the right version, the
    directory is there and the stat of the manifest fails with "not
    found", the constructor makes one [list -m] call; if that call fails
    the constructor fails and there is no [mod init] call; if it succeeds
    one [mod init] call follows, in the module directory, whose module
    name is the current module joined with the module directory, and the
    constructor fails if that call fails and returns the Runner if not. *)
Theorem NewRunner_bootstrap (st : State W) (out : string) (w1 w2 : W)
  (err : error) (w3 : W) (r4 : RunResult) (w4 : W) (r5 : RunResult) (w5 : W) :
  cmd_Run "" goCmd ["version"] (world st) = (mkRun out None, w1) ->
  strings.HasPrefix (strings.TrimRight_LF out) version_prefix = true ->
  os_MkdirAll modDir w1 = (None, w2) ->
  os_Stat (filepath.Join [modDir; "go.mod"]) w2 = (Some err, w3) ->
  os.IsNotExist err = true ->
  cmd_Run "" goCmd ["list"; "-m"] w3 = (r4, w4) ->
  cmd_Run (filepath.Join [""; modDir]) goCmd
    ["mod"; "init"; filepath.Join [strings.TrimRight_LF (output r4); modDir]] w4
    = (r5, w5) ->
  exists (res : result Runner) (st' : State W) (calls : list Event),
    NewRunner insecure modDir goCmd st = (res, st')
    /\ trace st' = trace st ++ calls
    /\ count is_list_m calls = 1
    /\ match run_err r4 with
       | Some _ =>
           world st' = w4
           /\ calls = [EvRun "" goCmd ["version"]; EvMkdirAll modDir;
                       EvStat (filepath.Join [modDir; "go.mod"]);
                       EvRun "" goCmd ["list"; "-m"]]
           /\ count is_mod_init calls = 0
           /\ exists e : error, res = Err e
       | None =>
           world st' = w5
           /\ calls = [EvRun "" goCmd ["version"]; EvMkdirAll modDir;
                       EvStat (filepath.Join [modDir; "go.mod"]);
                       EvRun "" goCmd ["list"; "-m"];
                       EvRun (filepath.Join [""; modDir]) goCmd
                         ["mod"; "init";
                          filepath.Join [strings.TrimRight_LF (output r4); modDir]]]
           /\ count is_mod_init calls = 1
           /\ match run_err r5 with
              | Some _ => exists e : error, res = Err e
              | None => res = Ok (mkRunner goCmd modDir insecure false)
              end
       end.
Proof.
  intros E1 P E2 E3 N E4 E5. open_constructor.
  rewrite (@exec_run _ _ _ "" goCmd ["version"] st _ _ E1). fields.
  unfold version_prefix in P. rewrite P. fields.
  erewrite MkdirAll_run by exact E2. fields.
  erewrite Stat_run by exact E3. fields.
  rewrite N. fields.
  erewrite (@exec_run _ _ _ "" goCmd ["list"; "-m"]) by exact E4. fields.
  destruct (run_err r4) as [err4|].
  - assert (X : exists e : error,
               (if isExitError err4
                then Err (errors.New (output r4))
                else Err (exec_errorf goCmd ["list"; "-m"] (output r4) err4))
               = Err e :> result string)
      by (destruct (isExitError err4); eexists; reflexivity).
    destruct X as [e ->].
    do 3 eexists. split; [reflexivity|]. fields. rewrite <- !app_assoc.
    split; [reflexivity|]. split; [reflexivity|].
    repeat split. now exists e.
  - erewrite (@exec_run _ _ _ modDir goCmd) by exact E5. fields.
    destruct (run_err r5) as [err5|].
    + assert (X : exists e : error,
                 (if isExitError err5
                  then Err (errors.New (output r5))
                  else Err (exec_errorf goCmd
                              ["mod"; "init";
                               filepath.Join [strings.TrimRight_LF (output r4); modDir]]
                              (output r5) err5))
                 = Err e :> result string)
        by (destruct (isExitError err5); eexists; reflexivity).
      destruct X as [e ->].
      do 3 eexists. split; [reflexivity|]. fields. rewrite <- !app_assoc.
      split; [reflexivity|]. split; [reflexivity|].
      repeat split. now exists e.
    + do 3 eexists. split; [reflexivity|]. fields. rewrite <- !app_assoc.
      split; [reflexivity|]. split; [reflexivity|].
      repeat split.
Qed.

(** A Runner the constructor returns is the one it was asked for, with
    the verbose flag unset. *)
Lemma NewRunner_returns (st : State W) (r : Runner) :
  fst (NewRunner insecure modDir goCmd st) = Ok r ->
  r = mkRunner goCmd modDir insecure false.
Proof.
  open_constructor.
  repeat match goal with
         | |- context [match ?x with _ => _ end] =>
             destruct x eqn:?; fields; try discriminate
         end.
  all: now intros [= <-].
Qed.

(** C9. A Runner the constructor returns is not verbose, so when a
    subprocess it runs ends with an exit error the message of the failure
    is the captured output and nothing else. *)
Theorem NewRunner_never_verbose (st : State W) (r : Runner) :
  fst (NewRunner insecure modDir goCmd st) = Ok r ->
  verbose r = false
  /\ forall (cd command : string) (args : list string) (st1 : State W)
        (out state : string) (w : W),
      cmd_Run (filepath.Join [""; cd]) command args (world st1)
        = (mkRun out (Some (ExitError state)), w) ->
      exists e : error,
        fst (exec r cd command args st1) = Err e /\ Error e = out.
Proof.
  intros E. apply NewRunner_returns in E. subst r. split; [reflexivity|].
  intros cd command args st1 out state w E1.
  rewrite (@exec_run _ _ _ cd command args st1 _ _ E1). fields.
  eexists; split; reflexivity.
Qed.

End Constructor.

Lemma NewRunner_manifest_present_witness :
  cmd_Run "" "go" ["version"] (world bootstrapped)
    = (mkRun ("go version go1.14.9 linux/amd64" ++ String strings.LF "")%string None,
       world bootstrapped)
  /\ strings.HasPrefix "go version go1.14.9 linux/amd64" version_prefix = true
  /\ os_MkdirAll ".bingo" (world bootstrapped) = (None, world bootstrapped)
  /\ os_Stat ".bingo/go.mod" (world bootstrapped) = (None, world bootstrapped)
  /\ exists calls : list Event,
       NewRunner true ".bingo" "go" bootstrapped
         = (Ok (mkRunner "go" ".bingo" true false),
            mkState (world bootstrapped) calls)
       /\ count is_list_m calls = 0
       /\ count is_mod_init calls = 0.
Proof.
  repeat (split; [reflexivity|]).
  destruct (@NewRunner_manifest_present Stub stub_host true ".bingo" "go"
              bootstrapped _ _ _ _ eq_refl eq_refl eq_refl eq_refl)
    as [calls [E [_ [L [I _]]]]].
  exists calls. repeat split; assumption.
Defined.

Lemma NewRunner_version_check_first_witness :
  cmd_Run "" "go" ["version"] (world go113)
    = (mkRun ("go version go1.13.4 linux/amd64" ++ String strings.LF "")%string None,
       world go113)
  /\ strings.HasPrefix "go version go1.13.4 linux/amd64" version_prefix = false
  /\ exists e : error,
       NewRunner false ".bingo" "go" go113
         = (Err e, mkState (world go113) [EvRun "" "go" ["version"]]).
Proof.
  repeat (split; [reflexivity|]).
  exact (@NewRunner_version_check_first Stub stub_host false ".bingo" "go"
           go113 _ _ eq_refl (or_intror eq_refl)).
Defined.

Lemma NewRunner_unsupported_version_witness :
  cmd_Run "" "go" ["version"] (world go113)
    = (mkRun ("go version go1.13.4 linux/amd64" ++ String strings.LF "")%string None,
       world go113)
  /\ strings.HasPrefix "go version go1.13.4 linux/amd64" version_prefix = false
  /\ exists e : error,
       fst (NewRunner false ".bingo" "go" go113) = Err e
       /\ Error e
          = "found unsupported go version: go version go1.13.4 linux/amd64. Requires go1.14.x"%string
       /\ strings.Includes (Error e) "go version go1.13.4 linux/amd64".
Proof.
  repeat (split; [reflexivity|]).
  exact (@NewRunner_unsupported_version Stub stub_host false ".bingo" "go"
           go113 _ _ eq_refl eq_refl).
Defined.

Lemma NewRunner_bootstrap_witness :
  cmd_Run "" "go" ["version"] (world fresh)
    = (mkRun ("go version go1.14.9 linux/amd64" ++ String strings.LF "")%string None,
       world fresh)
  /\ strings.HasPrefix "go version go1.14.9 linux/amd64" version_prefix = true
  /\ os_MkdirAll ".bingo" (world fresh) = (None, world fresh)
  /\ os_Stat ".bingo/go.mod" (world fresh)
     = (Some (SysError true "stat .bingo/go.mod: no such file or directory"),
        world fresh)
  /\ os.IsNotExist (SysError true "stat .bingo/go.mod: no such file or directory") = true
  /\ cmd_Run "" "go" ["list"; "-m"] (world fresh)
     = (mkRun ("example.com/mod" ++ String strings.LF "")%string None, world fresh)
  /\ cmd_Run ".bingo" "go" ["mod"; "init"; "example.com/mod/.bingo"] (world fresh)
     = (mkRun "go: creating new go.mod: module example.com/mod/.bingo" None,
        fresh_bootstrapped)
  /\ exists (st' : State Stub) (calls : list Event),
       NewRunner false ".bingo" "go" fresh = (Ok (mkRunner "go" ".bingo" false false), st')
       /\ trace st' = calls
       /\ world st' = fresh_bootstrapped
       /\ count is_list_m calls = 1
       /\ count is_mod_init calls = 1.
Proof.
  repeat (split; [reflexivity|]).
  destruct (@NewRunner_bootstrap Stub stub_host false ".bingo" "go" fresh
              _ _ _ _ _ _ _ _ _
              eq_refl eq_refl eq_refl eq_refl eq_refl eq_refl eq_refl)
    as [res [st' [calls [E [T [L X]]]]]].
  cbn in X. destruct X as [Wd [_ [I R]]]. subst res.
  exists st', calls. repeat split; assumption.
Defined.

(** C2, as it is written, fails outside a module: the stat of the manifest
    fails with "not found", [list -m] fails, and the constructor returns
    its failure without any [mod init] call. *)
Lemma NewRunner_bootstrap_list_fails :
  exists (err e : error) (st' : State Stub),
    cmd_Run "" "go" ["version"] (world no_module)
      = (mkRun ("go version go1.14.9 linux/amd64" ++ String strings.LF "")%string None,
         world no_module)
    /\ os_MkdirAll ".bingo" (world no_module) = (None, world no_module)
    /\ os_Stat (filepath.Join [".bingo"; "go.mod"]) (world no_module)
       = (Some err, world no_module)
    /\ os.IsNotExist err = true
    /\ NewRunner false ".bingo" "go" no_module = (Err e, st')
    /\ trace st' = [EvRun "" "go" ["version"]; EvMkdirAll ".bingo";
                    EvStat ".bingo/go.mod"; EvRun "" "go" ["list"; "-m"]]
    /\ count is_list_m (trace st') = 1
    /\ count is_mod_init (trace st') = 0.
Proof.
  do 3 eexists. repeat split; reflexivity.
Qed.

Lemma NewRunner_never_verbose_witness :
  fst (NewRunner false ".bingo" "go" bootstrapped)
    = Ok (mkRunner "go" ".bingo" false false)
  /\ verbose (mkRunner "go" ".bingo" false false) = false
  /\ exists e : error,
       fst (exec (mkRunner "go" ".bingo" false false) ".bingo" "go" ["frobnicate"]
              bootstrapped) = Err e
       /\ Error e = "go: unknown command"%string.
Proof.
  split; [reflexivity|].
  destruct (@NewRunner_never_verbose Stub stub_host false ".bingo" "go"
              bootstrapped _ eq_refl) as [V X].
  split; [exact V|].
  exact (X ".bingo" "go" ["frobnicate"] bootstrapped _ _ _ eq_refl).
Defined.

(** ** The methods *)

Section Methods.

Context {W : Type} {H : Host W}.

(** A method that runs the tool in the module directory makes that one
    call to the host, and returns the error of [exec], if any. *)
Lemma execGoInModDir_once (c : Runner) (args : list string) (st : State W) :
  snd (execGoInModDir c args st)
  = mkState (snd (cmd_Run (filepath.Join [""; modDir c]) (goCmd c) args (world st)))
      (trace st ++ [EvRun (filepath.Join [""; modDir c]) (goCmd c) args]).
Proof.
  unfold execGoInModDir.
  destruct (cmd_Run (filepath.Join [""; modDir c]) (goCmd c) args (world st))
    as [r w] eqn:E.
  now rewrite (@exec_run _ _ c (modDir c) (goCmd c) args st _ _ E).
Qed.

Lemma method_state {A : Type} (m : M W (result A)) (st : State W) :
  snd (bind m (fun r => ret (err_of r)) st) = snd (m st).
Proof. unfold bind, ret. now destruct (m st). Qed.

(** C1. [GetD] runs the tool once, in the module directory, with the
    arguments [get -d], then [-insecure] if the Runner is insecure, then
    the policy if it is not the empty one, then the packages.  With the
    policy [-u] the flags end with [-u], and the packages follow. *)
Theorem GetD_arguments (c : Runner) (update : GetUpdatePolicy)
  (packages : list string) (st : State W) :
  trace (snd (GetD c update packages st))
  = trace st
    ++ [EvRun (filepath.Join [""; modDir c]) (goCmd c)
          (["get"; "-d"]
           ++ (if insecure c then ["-insecure"] else [])
           ++ (if String.eqb update NoUpdatePolicy then [] else [update])
           ++ packages)]
  /\ trace (snd (GetD c UpdatePolicy packages st))
     = trace st
       ++ [EvRun (filepath.Join [""; modDir c]) (goCmd c)
             ((["get"; "-d"] ++ (if insecure c then ["-insecure"] else []) ++ ["-u"])
              ++ packages)].
Proof.
  unfold GetD. rewrite !method_state, !execGoInModDir_once.
  cbn [trace]. unfold GetD_args.
  split; do 2 f_equal; f_equal.
  - destruct (insecure c), (String.eqb update NoUpdatePolicy); reflexivity.
  - destruct (insecure c); reflexivity.
Qed.

(** C8. [Install] makes one call to the host: the tool with [install] and
    the packages, in the module directory.  [ModTidy] makes one call to
    the host: the tool with [mod tidy], in the module directory. *)
Theorem Install_ModTidy_once (c : Runner) (packages : list string) (st : State W) :
  snd (Install c packages st)
  = mkState
      (snd (cmd_Run (filepath.Join [""; modDir c]) (goCmd c)
              ("install" :: packages) (world st)))
      (trace st
       ++ [EvRun (filepath.Join [""; modDir c]) (goCmd c) ("install" :: packages)])
  /\ snd (ModTidy c st)
     = mkState
         (snd (cmd_Run (filepath.Join [""; modDir c]) (goCmd c)
                 ["mod"; "tidy"] (world st)))
         (trace st
          ++ [EvRun (filepath.Join [""; modDir c]) (goCmd c) ["mod"; "tidy"]]).
Proof.
  unfold Install, ModTidy. rewrite !method_state, !execGoInModDir_once.
  split; reflexivity.
Qed.

End Methods.

(** ** More on strings and paths *)

Section MoreStringFacts.

Local Open Scope string_scope.

(** A string that does not end with the byte is left as it is. *)
Lemma trimRightByte_fixed (r : string) (c : ascii) :
  (forall t : string, r <> t ++ String c "") ->
  strings.trimRightByte r c = r.
Proof.
  induction r as [|a r IH]; intros N; simpl; [reflexivity|].
  destruct r as [|b r].
  - simpl. destruct (Ascii.eqb a c) eqn:E; [|reflexivity].
    apply Ascii.eqb_eq in E; subst a. now elim (N "").
  - rewrite IH; [reflexivity|].
    intros t E. apply (N (String a t)). simpl. now rewrite <- E.
Qed.

(** Bytes equal to [c] at the end do not change what is left. *)
Lemma trimRightByte_Repeat (s : string) (c : ascii) (k : nat) :
  strings.trimRightByte (s ++ strings.Repeat c k) c = strings.trimRightByte s c.
Proof.
  induction s as [|a s IH]; simpl.
  - induction k as [|k IHk]; simpl; [reflexivity|].
    rewrite IHk. now rewrite Ascii.eqb_refl.
  - now rewrite IH.
Qed.

(** [strings.HasPrefix] finds a prefix. *)
Lemma HasPrefix_split (s pre : string) :
  strings.HasPrefix s pre = true -> exists rest : string, s = pre ++ rest.
Proof.
  unfold strings.HasPrefix. revert s.
  induction pre as [|a pre IH]; intros s P.
  - now exists s.
  - destruct s as [|b s]; simpl in P; [discriminate|].
    destruct (ascii_dec a b) as [->|]; [|discriminate].
    destruct (IH s P) as [rest ->]. now exists rest.
Qed.

(** A common start does not matter to [strings.HasPrefix]. *)
Lemma HasPrefix_append (p q s : string) :
  strings.HasPrefix (p ++ s) (p ++ q) = strings.HasPrefix s q.
Proof.
  unfold strings.HasPrefix.
  induction p as [|a p IH]; [reflexivity|].
  cbn [append String.prefix].
  destruct (ascii_dec a a) as [_|N]; [exact IH | now elim N].
Qed.

(** [filepath.Clean] never returns the empty string. *)
Lemma Clean_not_empty (path : string) : filepath.Clean path <> "".
Proof.
  unfold filepath.Clean.
  destruct (String.eqb path ""); [discriminate|].
  destruct (filepath.IsRooted path); [discriminate|].
  destruct (String.eqb _ "") eqn:E; [discriminate|].
  now apply String.eqb_neq in E.
Qed.

(** The directory of a subprocess is empty for an empty [cd] only. *)
Lemma Join_cd_empty (cd : string) : filepath.Join [""; cd] = "" <-> cd = "".
Proof.
  simpl. destruct (String.eqb cd "") eqn:E.
  - apply String.eqb_eq in E. now split.
  - apply String.eqb_neq in E. split; [|now intros ->].
    intros C. now apply Clean_not_empty in C.
Qed.

End MoreStringFacts.

(** ** More on the subprocess helper *)

Section ExecMore.

Context {W : Type} {H : Host W}.

(** X12. When the subprocess exits with status zero and its output is a
    text that does not end with a line feed, followed by any number of
    line feeds, [exec] returns that text. *)
Theorem exec_returns_text (c : Runner) (cd command : string) (args : list string)
  (st : State W) (text : string) (k : nat) (w : W) :
  cmd_Run (filepath.Join [""; cd]) command args (world st)
    = (mkRun (text ++ strings.Repeat strings.LF k)%string None, w) ->
  (forall t : string, text <> (t ++ String strings.LF "")%string) ->
  fst (exec c cd command args st) = Ok text.
Proof.
  intros E N. rewrite (@exec_run _ _ c cd command args st _ _ E). fields.
  unfold strings.TrimRight_LF.
  now rewrite trimRightByte_Repeat, trimRightByte_fixed.
Qed.

(** X11. [exec] runs the command in the directory of the caller (an empty
    [cmd.Dir]) exactly when [cd] is empty. *)
Theorem exec_in_caller_dir (c : Runner) (cd command : string) (args : list string)
  (st : State W) :
  exists dir : string,
    trace (snd (exec c cd command args st)) = trace st ++ [EvRun dir command args]
    /\ (dir = ""%string <-> cd = ""%string).
Proof.
  exists (filepath.Join [""; cd]). split; [|apply Join_cd_empty].
  destruct (cmd_Run (filepath.Join [""; cd]) command args (world st)) as [r w] eqn:E.
  now rewrite (@exec_run _ _ c cd command args st _ _ E).
Qed.

End ExecMore.

Lemma exec_returns_text_witness :
  cmd_Run (filepath.Join [""; ""]) "go" ["list"; "-m"] (world fresh)
    = (mkRun ("example.com/mod" ++ strings.Repeat strings.LF 1)%string None, world fresh)
  /\ (forall t : string, "example.com/mod"%string <> (t ++ String strings.LF "")%string)
  /\ fst (exec (mkRunner "go" ".bingo" false false) "" "go" ["list"; "-m"] fresh)
     = Ok "example.com/mod"%string.
Proof.
  assert (N : forall t : string,
             "example.com/mod"%string <> (t ++ String strings.LF "")%string).
  { intros t E.
    apply (@trimRightByte_end "example.com/mod" strings.LF t).
    exact E. }
  split; [reflexivity|]. split; [exact N|].
  exact (@exec_returns_text Stub stub_host (mkRunner "go" ".bingo" false false)
           "" "go" ["list"; "-m"] fresh "example.com/mod" 1 _ eq_refl N).
Defined.

(** ** More on the constructor *)

Section ConstructorFailures.

Context {W : Type} {H : Host W}.

Variables (insecure : bool) (modDir goCmd : string).

(** The failure [exec] makes of an error of [cmd.Run] for a Runner that is
    not verbose: the bare output for an exit error, the full text for any
    other error. *)
Lemma exec_quiet_error (command : string) (args : list string) (out : string)
  (err : error) :
  exists e : error,
    (if isExitError err
     then Err (errors.New out)
     else Err (exec_errorf command args out err)) = Err e :> result string
    /\ Error e
       = if isExitError err then out
         else ("error while running command '" ++ command ++ " "
               ++ strings.Join args " " ++ "'; out: " ++ out
               ++ "; err: " ++ Error err)%string.
Proof. destruct (isExitError err); eexists; split; reflexivity. Qed.

(** X1. When the version call fails, the constructor fails with the text
    [exec go to detect the version: ] followed by the output of the call
    if it ended with an exit error, and by the full text of [exec] for any
    other error. *)
Theorem NewRunner_version_call_fails (st : State W) (out : string) (err : error)
  (w1 : W) :
  cmd_Run "" goCmd ["version"] (world st) = (mkRun out (Some err), w1) ->
  exists e : error,
    fst (NewRunner insecure modDir goCmd st) = Err e
    /\ Error e
       = ("exec go to detect the version: "
          ++ (if isExitError err then out
              else "error while running command '" ++ goCmd
                   ++ " version'; out: " ++ out ++ "; err: " ++ Error err))%string.
Proof.
  intros E1. open_constructor.
  rewrite (@exec_run _ _ _ "" goCmd ["version"] st _ _ E1). fields.
  destruct (exec_quiet_error goCmd ["version"] out err) as [e [-> T]].
  eexists; split; [reflexivity|]. cbn [Error errors.Wrap]. now rewrite T.
Qed.

(** X2. When the version is right and [MkdirAll] fails, the constructor
    fails with the text [create moddir ], the module directory and the
    error, after the version call and [MkdirAll] only: no [Stat] and no
    other subprocess. *)
Theorem NewRunner_mkdir_fails (st : State W) (out : string) (w1 : W) (err : error)
  (w2 : W) :
  cmd_Run "" goCmd ["version"] (world st) = (mkRun out None, w1) ->
  strings.HasPrefix (strings.TrimRight_LF out) version_prefix = true ->
  os_MkdirAll modDir w1 = (Some err, w2) ->
  exists e : error,
    NewRunner insecure modDir goCmd st
      = (Err e, mkState w2 (trace st ++ [EvRun "" goCmd ["version"]; EvMkdirAll modDir]))
    /\ Error e = ("create moddir " ++ modDir ++ ": " ++ Error err)%string.
Proof.
  intros E1 P E2. open_constructor.
  rewrite (@exec_run _ _ _ "" goCmd ["version"] st _ _ E1). fields.
  unfold version_prefix in P. rewrite P. fields.
  erewrite MkdirAll_run by exact E2. fields.
  rewrite <- !app_assoc.
  eexists; split; [reflexivity|]. cbn [Error errors.Wrap].
  now rewrite append_assoc.
Qed.

(** X3. When the stat of the manifest fails with an error that is not
    "not found", the constructor fails with the text [stat module file ],
    the path of the manifest and the error, and runs no [list -m] and no
    [mod init]. *)
Theorem NewRunner_stat_fails (st : State W) (out : string) (w1 w2 : W) (err : error)
  (w3 : W) :
  cmd_Run "" goCmd ["version"] (world st) = (mkRun out None, w1) ->
  strings.HasPrefix (strings.TrimRight_LF out) version_prefix = true ->
  os_MkdirAll modDir w1 = (None, w2) ->
  os_Stat (filepath.Join [modDir; "go.mod"]) w2 = (Some err, w3) ->
  os.IsNotExist err = false ->
  exists e : error,
    NewRunner insecure modDir goCmd st
      = (Err e,
         mkState w3
           (trace st ++ [EvRun "" goCmd ["version"]; EvMkdirAll modDir;
                         EvStat (filepath.Join [modDir; "go.mod"])]))
    /\ Error e = ("stat module file " ++ filepath.Join [modDir; "go.mod"]
                  ++ ": " ++ Error err)%string.
Proof.
  intros E1 P E2 E3 N. open_constructor.
  rewrite (@exec_run _ _ _ "" goCmd ["version"] st _ _ E1). fields.
  unfold version_prefix in P. rewrite P. fields.
  erewrite MkdirAll_run by exact E2. fields.
  erewrite Stat_run by exact E3. fields.
  rewrite N. fields. rewrite <- !app_assoc.
  eexists; split; [reflexivity|]. cbn [Error errors.Wrap].
  now rewrite append_assoc.
Qed.

(** X4. When the manifest is not found and [list -m] fails, the
    constructor returns the failure of [exec] as it is, with no text of
    its own: the output of [list -m] alone if the call ended with an exit
    error. *)
Theorem NewRunner_list_m_fails (st : State W) (out : string) (w1 w2 : W)
  (err : error) (w3 : W) (out4 : string) (err4 : error) (w4 : W) :
  cmd_Run "" goCmd ["version"] (world st) = (mkRun out None, w1) ->
  strings.HasPrefix (strings.TrimRight_LF out) version_prefix = true ->
  os_MkdirAll modDir w1 = (None, w2) ->
  os_Stat (filepath.Join [modDir; "go.mod"]) w2 = (Some err, w3) ->
  os.IsNotExist err = true ->
  cmd_Run "" goCmd ["list"; "-m"] w3 = (mkRun out4 (Some err4), w4) ->
  exists e : error,
    fst (NewRunner insecure modDir goCmd st) = Err e
    /\ Error e
       = if isExitError err4 then out4
         else ("error while running command '" ++ goCmd ++ " list -m'; out: "
               ++ out4 ++ "; err: " ++ Error err4)%string.
Proof.
  intros E1 P E2 E3 N E4. open_constructor.
  rewrite (@exec_run _ _ _ "" goCmd ["version"] st _ _ E1). fields.
  unfold version_prefix in P. rewrite P. fields.
  erewrite MkdirAll_run by exact E2. fields.
  erewrite Stat_run by exact E3. fields.
  rewrite N. fields.
  erewrite (@exec_run _ _ _ "" goCmd ["list"; "-m"]) by exact E4. fields.
  destruct (exec_quiet_error goCmd ["list"; "-m"] out4 err4) as [e [-> T]].
  eexists; split; [reflexivity|]. exact T.
Qed.

(** X5. When the manifest is not found, [list -m] succeeds and [mod init]
    ends with an exit error, the constructor fails and the text of the
    failure is the output of [mod init], with nothing added. *)
Theorem NewRunner_mod_init_fails (st : State W) (out : string) (w1 w2 : W)
  (err : error) (w3 : W) (out4 : string) (w4 : W) (out5 state : string) (w5 : W) :
  cmd_Run "" goCmd ["version"] (world st) = (mkRun out None, w1) ->
  strings.HasPrefix (strings.TrimRight_LF out) version_prefix = true ->
  os_MkdirAll modDir w1 = (None, w2) ->
  os_Stat (filepath.Join [modDir; "go.mod"]) w2 = (Some err, w3) ->
  os.IsNotExist err = true ->
  cmd_Run "" goCmd ["list"; "-m"] w3 = (mkRun out4 None, w4) ->
  cmd_Run (filepath.Join [""; modDir]) goCmd
    ["mod"; "init"; filepath.Join [strings.TrimRight_LF out4; modDir]] w4
    = (mkRun out5 (Some (ExitError state)), w5) ->
  exists e : error,
    fst (NewRunner insecure modDir goCmd st) = Err e /\ Error e = out5.
Proof.
  intros E1 P E2 E3 N E4 E5. open_constructor.
  rewrite (@exec_run _ _ _ "" goCmd ["version"] st _ _ E1). fields.
  unfold version_prefix in P. rewrite P. fields.
  erewrite MkdirAll_run by exact E2. fields.
  erewrite Stat_run by exact E3. fields.
  rewrite N. fields.
  erewrite (@exec_run _ _ _ "" goCmd ["list"; "-m"]) by exact E4. fields.
  erewrite (@exec_run _ _ _ modDir goCmd) by exact E5. fields.
  eexists; split; reflexivity.
Qed.

End ConstructorFailures.

Section ConstructorPaths.

Context {W : Type} {H : Host W}.

Variables (insecure : bool) (modDir goCmd : string).

(** X7. Whatever happens, the constructor calls the host at most five
    times and runs at most three subprocesses; the first call is the
    version call; every subprocess is the tool it was given, run in the
    directory of the caller or in the module directory; [MkdirAll] is for
    the module directory and [Stat] for its manifest. *)
Theorem NewRunner_calls (st : State W) :
  exists calls : list Event,
    trace (snd (NewRunner insecure modDir goCmd st)) = trace st ++ calls
    /\ Forall (constructor_call modDir goCmd) calls
    /\ hd_error calls = Some (EvRun "" goCmd ["version"])
    /\ length calls <= 5
    /\ count is_run calls <= 3.
Proof.
  all_paths; rewrite <- ?app_assoc;
    (eexists; split; [reflexivity|]);
    cbn [app length count filter is_run hd_error];
    (split; [|split; [reflexivity | split; lia]]);
    repeat constructor;
    try (now left); now right.
Qed.

(** X6. When the constructor returns a Runner, the version call succeeded
    and printed a line that starts with [go version go1.14.], and the
    calls to the host were the version call, [MkdirAll] and [Stat], alone
    or followed by one [list -m] and one [mod init], in this order. *)
Theorem NewRunner_success (st : State W) (rv : RunResult) (w1 : W) (r : Runner)
  (st' : State W) :
  cmd_Run "" goCmd ["version"] (world st) = (rv, w1) ->
  NewRunner insecure modDir goCmd st = (Ok r, st') ->
  run_err rv = None
  /\ (exists rest : string,
        strings.TrimRight_LF (output rv) = (version_prefix ++ rest)%string)
  /\ exists calls : list Event,
       trace st' = trace st ++ calls
       /\ (calls = [EvRun "" goCmd ["version"]; EvMkdirAll modDir;
                    EvStat (filepath.Join [modDir; "go.mod"])]
           \/ exists name : string,
               calls = [EvRun "" goCmd ["version"]; EvMkdirAll modDir;
                        EvStat (filepath.Join [modDir; "go.mod"]);
                        EvRun "" goCmd ["list"; "-m"];
                        EvRun (filepath.Join [""; modDir]) goCmd
                          ["mod"; "init"; name]]).
Proof.
  intros E1. unfold version_prefix.
  lay_open. rewrite E1. fields. repeat path_step;
    try discriminate; intros [= <- <-]; cbn [trace]; rewrite <- ?app_assoc;
    (split; [reflexivity|]);
    (split; [now apply HasPrefix_split|]);
    (eexists; split; [reflexivity|]).
  - right. eexists. reflexivity.
  - now left.
Qed.

(** X13. The constructor calls [MkdirAll] for the module directory exactly
    when the version call succeeded and printed a line that starts with
    [go version go1.14.]. *)
Theorem NewRunner_mkdir_iff (st : State W) (rv : RunResult) (w1 : W) :
  cmd_Run "" goCmd ["version"] (world st) = (rv, w1) ->
  exists calls : list Event,
    trace (snd (NewRunner insecure modDir goCmd st)) = trace st ++ calls
    /\ (In (EvMkdirAll modDir) calls
        <-> run_err rv = None
            /\ strings.HasPrefix (strings.TrimRight_LF (output rv)) version_prefix
               = true).
Proof.
  intros E1. unfold version_prefix.
  lay_open. rewrite E1. fields. repeat path_step;
    rewrite <- ?app_assoc; (eexists; split; [reflexivity|]);
    cbn [app In];
    (split; [intros I | intros [R P]]);
    try discriminate; try (split; reflexivity); try (now right; left);
    repeat (destruct I as [I|I]; [discriminate|]); now elim I.
Qed.

(** X14. A version line [go version go1.14] that goes on with anything but
    a dot (the line of the release 1.14 itself, which has no patch number)
    is refused: the constructor fails after the version call alone. *)
Theorem NewRunner_refuses_go114_without_dot (st : State W) (out rest : string)
  (w1 : W) :
  cmd_Run "" goCmd ["version"] (world st) = (mkRun out None, w1) ->
  strings.TrimRight_LF out = ("go version go1.14" ++ rest)%string ->
  (forall rest' : string, rest <> String "." rest') ->
  exists e : error,
    NewRunner insecure modDir goCmd st
      = (Err e, mkState w1 (trace st ++ [EvRun "" goCmd ["version"]]))
    /\ Error e = ("found unsupported go version: go version go1.14" ++ rest
                  ++ ". Requires go1.14.x")%string.
Proof.
  intros E1 T N. open_constructor.
  rewrite (@exec_run _ _ _ "" goCmd ["version"] st _ _ E1). fields.
  rewrite T.
  assert (P : strings.HasPrefix ("go version go1.14" ++ rest) "go version go1.14."
              = false).
  { change "go version go1.14."%string with ("go version go1.14" ++ ".")%string.
    rewrite HasPrefix_append. unfold strings.HasPrefix.
    destruct rest as [|a rest0]; [reflexivity|]. cbn [String.prefix].
    destruct (ascii_dec "." a) as [<-|]; [|reflexivity].
    now elim (N rest0). }
  rewrite P. fields.
  eexists; split; reflexivity.
Qed.

End ConstructorPaths.

Lemma NewRunner_version_call_fails_witness :
  cmd_Run "" "gox" ["version"] (world fresh)
    = (mkRun "" (Some (SysError false "exec: gox: executable file not found")),
       world fresh)
  /\ exists e : error,
       fst (NewRunner false ".bingo" "gox" fresh) = Err e
       /\ Error e
          = "exec go to detect the version: error while running command 'gox version'; out: ; err: exec: gox: executable file not found"%string.
Proof.
  split; [reflexivity|].
  exact (@NewRunner_version_call_fails Stub stub_host false ".bingo" "gox" fresh
           _ _ _ eq_refl).
Defined.

Lemma NewRunner_mkdir_fails_witness :
  cmd_Run "" "go" ["version"] (world fresh)
    = (mkRun ("go version go1.14.9 linux/amd64" ++ String strings.LF "")%string None,
       world fresh)
  /\ strings.HasPrefix "go version go1.14.9 linux/amd64" version_prefix = true
  /\ os_MkdirAll "" (world fresh)
     = (Some (SysError true "mkdir : no such file or directory"), world fresh)
  /\ exists e : error,
       NewRunner false "" "go" fresh
         = (Err e, mkState (world fresh) [EvRun "" "go" ["version"]; EvMkdirAll ""])
       /\ Error e = "create moddir : mkdir : no such file or directory"%string.
Proof.
  repeat (split; [reflexivity|]).
  exact (@NewRunner_mkdir_fails Stub stub_host false "" "go" fresh
           _ _ _ _ eq_refl eq_refl eq_refl).
Defined.

Lemma NewRunner_stat_fails_witness :
  cmd_Run "" "go" ["version"] (world stat_denied)
    = (mkRun ("go version go1.14.2 linux/amd64" ++ String strings.LF "")%string None,
       tl (world stat_denied))
  /\ strings.HasPrefix "go version go1.14.2 linux/amd64" version_prefix = true
  /\ os_MkdirAll ".bingo" (tl (world stat_denied)) = (None, tl (tl (world stat_denied)))
  /\ os_Stat ".bingo/go.mod" (tl (tl (world stat_denied)))
     = (Some (SysError false "stat .bingo/go.mod: permission denied"), [])
  /\ os.IsNotExist (SysError false "stat .bingo/go.mod: permission denied") = false
  /\ exists e : error,
       NewRunner false ".bingo" "go" stat_denied
         = (Err e,
            mkState []
              [EvRun "" "go" ["version"]; EvMkdirAll ".bingo"; EvStat ".bingo/go.mod"])
       /\ Error e
          = "stat module file .bingo/go.mod: stat .bingo/go.mod: permission denied"%string.
Proof.
  repeat (split; [reflexivity|]).
  exact (@NewRunner_stat_fails Script script_host false ".bingo" "go" stat_denied
           _ _ _ _ _ eq_refl eq_refl eq_refl eq_refl eq_refl).
Defined.

Lemma NewRunner_list_m_fails_witness :
  cmd_Run "" "go" ["version"] (world no_module)
    = (mkRun ("go version go1.14.9 linux/amd64" ++ String strings.LF "")%string None,
       world no_module)
  /\ strings.HasPrefix "go version go1.14.9 linux/amd64" version_prefix = true
  /\ os_MkdirAll ".bingo" (world no_module) = (None, world no_module)
  /\ os_Stat ".bingo/go.mod" (world no_module)
     = (Some (SysError true "stat .bingo/go.mod: no such file or directory"),
        world no_module)
  /\ os.IsNotExist (SysError true "stat .bingo/go.mod: no such file or directory") = true
  /\ cmd_Run "" "go" ["list"; "-m"] (world no_module)
     = (mkRun "go: cannot find main module" (Some (ExitError "exit status 1")),
        world no_module)
  /\ exists e : error,
       fst (NewRunner false ".bingo" "go" no_module) = Err e
       /\ Error e = "go: cannot find main module"%string.
Proof.
  repeat (split; [reflexivity|]).
  exact (@NewRunner_list_m_fails Stub stub_host false ".bingo" "go" no_module
           _ _ _ _ _ _ _ _ eq_refl eq_refl eq_refl eq_refl eq_refl eq_refl).
Defined.

Lemma NewRunner_mod_init_fails_witness :
  cmd_Run "" "go" ["version"] (world init_fails)
    = (mkRun ("go version go1.14.2 linux/amd64" ++ String strings.LF "")%string None,
       tl (world init_fails))
  /\ strings.HasPrefix "go version go1.14.2 linux/amd64" version_prefix = true
  /\ os_MkdirAll ".bingo" (tl (world init_fails)) = (None, tl (tl (world init_fails)))
  /\ os_Stat ".bingo/go.mod" (tl (tl (world init_fails)))
     = (Some (SysError true "stat .bingo/go.mod: no such file or directory"),
        tl (tl (tl (world init_fails))))
  /\ os.IsNotExist (SysError true "stat .bingo/go.mod: no such file or directory") = true
  /\ cmd_Run "" "go" ["list"; "-m"] (tl (tl (tl (world init_fails))))
     = (mkRun ("example.com/mod" ++ String strings.LF "")%string None,
        tl (tl (tl (tl (world init_fails)))))
  /\ cmd_Run ".bingo" "go" ["mod"; "init"; "example.com/mod/.bingo"]
       (tl (tl (tl (tl (world init_fails)))))
     = (mkRun "go: cannot determine module path" (Some (ExitError "exit status 1")), [])
  /\ exists e : error,
       fst (NewRunner false ".bingo" "go" init_fails) = Err e
       /\ Error e = "go: cannot determine module path"%string.
Proof.
  repeat (split; [reflexivity|]).
  exact (@NewRunner_mod_init_fails Script script_host false ".bingo" "go" init_fails
           _ _ _ _ _ _ _ _ _ _
           eq_refl eq_refl eq_refl eq_refl eq_refl eq_refl eq_refl).
Defined.

Lemma NewRunner_success_witness :
  cmd_Run "" "go" ["version"] (world fresh)
    = (mkRun ("go version go1.14.9 linux/amd64" ++ String strings.LF "")%string None,
       world fresh)
  /\ NewRunner false ".bingo" "go" fresh
     = (Ok (mkRunner "go" ".bingo" false false),
        mkState fresh_bootstrapped
          [EvRun "" "go" ["version"]; EvMkdirAll ".bingo"; EvStat ".bingo/go.mod";
           EvRun "" "go" ["list"; "-m"];
           EvRun ".bingo" "go" ["mod"; "init"; "example.com/mod/.bingo"]])
  /\ exists rest : string,
       "go version go1.14.9 linux/amd64"%string = (version_prefix ++ rest)%string.
Proof.
  split; [reflexivity|]. split; [reflexivity|].
  exact (proj1 (proj2 (@NewRunner_success Stub stub_host false ".bingo" "go" fresh
                         _ _ _ _ eq_refl eq_refl))).
Defined.

Lemma NewRunner_mkdir_iff_witness :
  cmd_Run "" "go" ["version"] (world go113)
    = (mkRun ("go version go1.13.4 linux/amd64" ++ String strings.LF "")%string None,
       world go113)
  /\ exists calls : list Event,
       trace (snd (NewRunner false ".bingo" "go" go113)) = calls
       /\ (In (EvMkdirAll ".bingo") calls
           <-> None = None :> option error
               /\ strings.HasPrefix "go version go1.13.4 linux/amd64" version_prefix
                  = true).
Proof.
  split; [reflexivity|].
  exact (@NewRunner_mkdir_iff Stub stub_host false ".bingo" "go" go113 _ _ eq_refl).
Defined.

Lemma NewRunner_refuses_go114_without_dot_witness :
  cmd_Run "" "go" ["version"] (world go114_release)
    = (mkRun ("go version go1.14 linux/amd64" ++ String strings.LF "")%string None,
       world go114_release)
  /\ strings.TrimRight_LF ("go version go1.14 linux/amd64" ++ String strings.LF "")
     = ("go version go1.14" ++ " linux/amd64")%string
  /\ (forall rest' : string, " linux/amd64"%string <> String "." rest')
  /\ exists e : error,
       NewRunner false ".bingo" "go" go114_release
         = (Err e, mkState (world go114_release) [EvRun "" "go" ["version"]])
       /\ Error e
          = "found unsupported go version: go version go1.14 linux/amd64. Requires go1.14.x"%string.
Proof.
  assert (N : forall rest' : string, " linux/amd64"%string <> String "." rest')
    by (intros rest'; discriminate).
  split; [reflexivity|]. split; [reflexivity|]. split; [exact N|].
  exact (@NewRunner_refuses_go114_without_dot Stub stub_host false ".bingo" "go"
           go114_release _ " linux/amd64" _ eq_refl eq_refl N).
Defined.

(** ** More on the methods *)

Section MethodResults.

Context {W : Type} {H : Host W}.

Lemma method_result {A : Type} (m : M W (result A)) (st : State W) :
  fst (bind m (fun r => ret (err_of r)) st) = err_of (fst (m st)).
Proof. unfold bind, ret. now destruct (m st). Qed.

(** The error of a call in the module directory, from what [cmd.Run]
    returned. *)
Lemma execGoInModDir_error (c : Runner) (args : list string) (st : State W)
  (r : RunResult) (w : W) :
  cmd_Run (filepath.Join [""; modDir c]) (goCmd c) args (world st) = (r, w) ->
  err_of (fst (execGoInModDir c args st))
  = match run_err r with
    | Some err =>
        if isExitError err && negb (verbose c) then Some (errors.New (output r))
        else Some (exec_errorf (goCmd c) args (output r) err)
    | None => None
    end.
Proof.
  intros E. unfold execGoInModDir.
  rewrite (@exec_run _ _ c (modDir c) (goCmd c) args st _ _ E). fields.
  destruct (run_err r) as [err|]; [|reflexivity].
  destruct (isExitError err), (verbose c); reflexivity.
Qed.

Lemma execGoInModDir_nil (c : Runner) (args : list string) (st : State W) :
  err_of (fst (execGoInModDir c args st)) = None
  <-> run_err (fst (cmd_Run (filepath.Join [""; modDir c]) (goCmd c) args (world st)))
      = None.
Proof.
  destruct (cmd_Run (filepath.Join [""; modDir c]) (goCmd c) args (world st))
    as [r w] eqn:E.
  rewrite (@execGoInModDir_error c args st _ _ E). cbn [fst].
  destruct (run_err r) as [err|]; [|now split].
  destruct (isExitError err && negb (verbose c)); split; discriminate.
Qed.

(** X8. [GetD], [Install] and [ModTidy] return nil exactly when [cmd.Run]
    returned nil for their one subprocess: no error is dropped and none is
    made up. *)
Theorem methods_nil_iff (c : Runner) (update : GetUpdatePolicy)
  (packages : list string) (st : State W) :
  (fst (GetD c update packages st) = None
   <-> run_err (fst (cmd_Run (filepath.Join [""; modDir c]) (goCmd c)
                       (GetD_args c update packages) (world st))) = None)
  /\ (fst (Install c packages st) = None
      <-> run_err (fst (cmd_Run (filepath.Join [""; modDir c]) (goCmd c)
                          ("install" :: packages) (world st))) = None)
  /\ (fst (ModTidy c st) = None
      <-> run_err (fst (cmd_Run (filepath.Join [""; modDir c]) (goCmd c)
                          ["mod"; "tidy"] (world st))) = None).
Proof.
  unfold GetD, Install, ModTidy. rewrite !method_result.
  repeat split; apply execGoInModDir_nil.
Qed.

(** X9. For a Runner that is not verbose, when the subprocess of [GetD],
    of [Install] or of [ModTidy] ends with an exit error, the method
    returns an error whose text is the captured output. *)
Theorem methods_quiet_error (c : Runner) (update : GetUpdatePolicy)
  (packages : list string) (st : State W) :
  verbose c = false ->
  (forall (out state : string) (w : W),
      cmd_Run (filepath.Join [""; modDir c]) (goCmd c)
        (GetD_args c update packages) (world st)
        = (mkRun out (Some (ExitError state)), w) ->
      exists e : error, fst (GetD c update packages st) = Some e /\ Error e = out)
  /\ (forall (out state : string) (w : W),
         cmd_Run (filepath.Join [""; modDir c]) (goCmd c)
           ("install" :: packages) (world st)
           = (mkRun out (Some (ExitError state)), w) ->
         exists e : error, fst (Install c packages st) = Some e /\ Error e = out)
  /\ (forall (out state : string) (w : W),
         cmd_Run (filepath.Join [""; modDir c]) (goCmd c) ["mod"; "tidy"] (world st)
           = (mkRun out (Some (ExitError state)), w) ->
         exists e : error, fst (ModTidy c st) = Some e /\ Error e = out).
Proof.
  intros V. unfold GetD, Install, ModTidy. rewrite !method_result. cbn [app].
  repeat split; intros out state w E;
    rewrite (@execGoInModDir_error c _ st _ _ E); fields; rewrite V;
    eexists; split; reflexivity.
Qed.

(** X10. A Runner the constructor returned runs [GetD] with the tool, the
    module directory and the insecure flag the constructor was given: one
    call of that tool in that directory, with [-insecure] among the flags
    exactly when the constructor was told so. *)
Theorem NewRunner_then_GetD (insecure : bool) (modDir goCmd : string)
  (st : State W) (r : Runner) (update : GetUpdatePolicy) (packages : list string)
  (st1 : State W) :
  fst (NewRunner insecure modDir goCmd st) = Ok r ->
  trace (snd (GetD r update packages st1))
  = trace st1
    ++ [EvRun (filepath.Join [""; modDir]) goCmd
          (["get"; "-d"]
           ++ (if insecure then ["-insecure"] else [])
           ++ (if String.eqb update NoUpdatePolicy then [] else [update])
           ++ packages)].
Proof.
  intros E. apply NewRunner_returns in E. subst r.
  unfold GetD. rewrite method_state, execGoInModDir_once.
  unfold GetD_args. fields.
  destruct insecure, (String.eqb update NoUpdatePolicy); reflexivity.
Qed.

End MethodResults.

Lemma methods_quiet_error_witness :
  verbose (mkRunner "go" ".bingo" false false) = false
  /\ (exists e : error,
        fst (GetD (mkRunner "go" ".bingo" false false) UpdatePolicy ["a@v1"] bootstrapped)
          = Some e
        /\ Error e = "go: unknown command"%string)
  /\ (exists e : error,
        fst (Install (mkRunner "go" ".bingo" false false) ["a"] bootstrapped) = Some e
        /\ Error e = "go: unknown command"%string)
  /\ (exists e : error,
        fst (ModTidy (mkRunner "go" ".bingo" false false) bootstrapped) = Some e
        /\ Error e = "go: unknown command"%string).
Proof.
  split; [reflexivity|].
  destruct (@methods_quiet_error Stub stub_host (mkRunner "go" ".bingo" false false)
              UpdatePolicy ["a@v1"] bootstrapped eq_refl) as [G _].
  destruct (@methods_quiet_error Stub stub_host (mkRunner "go" ".bingo" false false)
              UpdatePolicy ["a"] bootstrapped eq_refl) as [_ [I T]].
  split; [exact (G _ _ _ eq_refl)|].
  split; [exact (I _ _ _ eq_refl) | exact (T _ _ _ eq_refl)].
Defined.

Lemma NewRunner_then_GetD_witness :
  fst (NewRunner true ".bingo" "go" fresh) = Ok (mkRunner "go" ".bingo" true false)
  /\ trace (snd (GetD (mkRunner "go" ".bingo" true false) UpdatePatchPolicy
                   ["a@v1"; "b"] bootstrapped))
     = [EvRun ".bingo" "go" ["get"; "-d"; "-insecure"; "-u=patch"; "a@v1"; "b"]].
Proof.
  split; [reflexivity|].
  exact (@NewRunner_then_GetD Stub stub_host true ".bingo" "go" fresh _
           UpdatePatchPolicy ["a@v1"; "b"] bootstrapped eq_refl).
Defined.
